(** * PythonCloudFunction: a CSV-to-BigQuery loader, verified against its
      specification.

    The development embeds [src/PythonCloudFunction.py]:
    - [sanitize_field_name]          (regular-expression substitution, slice);
    - [create_bq_table_from_header]  (schema construction, table creation);
    - [load_csv_to_bq]               (load job configuration, blocking wait);
    - [process_csv_file]             (the event entry point).

    Python strings are sequences of Unicode code points, so a string is a
    list of code points ([N]); byte strings are lists of [byte].  The
    collaborators (storage, warehouse, encoding detector, text codecs, the
    csv reader, the text layer's read-ahead) are a record of oracles, and the function bodies run in a
    state-and-exception monad over the local file system, the warehouse's
    tables and the log of the calls that were issued. *)

From Stdlib Require Import NArith Lia Bool.
From Stdlib.Strings Require Import Byte.
From stdpp Require Import base option list gmap strings fin_maps.

Open Scope N_scope.

(** ** Python strings *)

Abbreviation pystr := (list N).
Abbreviation bytes := (list Byte.byte).

(** [py "abc"] is the Python literal ['abc'] (ASCII literals only). *)
Definition py (s : string) : pystr :=
  map Ascii.N_of_ascii (String.list_ascii_of_string s).

(** ** The Unicode character database, as far as [re] reads it *)

Module Unicode.

(** Code point ranges (inclusive) on which [Py_UNICODE_ISALNUM] holds, that
    is, [str.isalnum] of the one-character string: alphabetic, decimal,
    digit or numeric.  Unicode 14.0.0, the database of CPython 3.11. *)
Definition alnum_ranges : list (N * N) := [
  (48, 57); (65, 90); (97, 122); (170, 170); (178, 179); (181, 181);
    (185, 186); (188, 190); (192, 214); (216, 246); (248, 705); (710, 721);
    (736, 740); (748, 748); (750, 750); (880, 884); (886, 887); (890, 893);
    (895, 895); (902, 902); (904, 906); (908, 908); (910, 929); (931, 1013);
    (1015, 1153); (1162, 1327); (1329, 1366); (1369, 1369); (1376, 1416);
    (1488, 1514); (1519, 1522); (1568, 1610); (1632, 1641); (1646, 1647);
    (1649, 1747); (1749, 1749); (1765, 1766); (1774, 1788); (1791, 1791);
    (1808, 1808); (1810, 1839); (1869, 1957); (1969, 1969); (1984, 2026);
    (2036, 2037); (2042, 2042); (2048, 2069); (2074, 2074); (2084, 2084);
    (2088, 2088); (2112, 2136); (2144, 2154); (2160, 2183); (2185, 2190);
    (2208, 2249); (2308, 2361); (2365, 2365); (2384, 2384); (2392, 2401);
    (2406, 2415); (2417, 2432); (2437, 2444); (2447, 2448); (2451, 2472);
    (2474, 2480); (2482, 2482); (2486, 2489); (2493, 2493); (2510, 2510);
    (2524, 2525); (2527, 2529); (2534, 2545); (2548, 2553); (2556, 2556);
    (2565, 2570); (2575, 2576); (2579, 2600); (2602, 2608); (2610, 2611);
    (2613, 2614); (2616, 2617); (2649, 2652); (2654, 2654); (2662, 2671);
    (2674, 2676); (2693, 2701); (2703, 2705); (2707, 2728); (2730, 2736);
    (2738, 2739); (2741, 2745); (2749, 2749); (2768, 2768); (2784, 2785);
    (2790, 2799); (2809, 2809); (2821, 2828); (2831, 2832); (2835, 2856);
    (2858, 2864); (2866, 2867); (2869, 2873); (2877, 2877); (2908, 2909);
    (2911, 2913); (2918, 2927); (2929, 2935); (2947, 2947); (2949, 2954);
    (2958, 2960); (2962, 2965); (2969, 2970); (2972, 2972); (2974, 2975);
    (2979, 2980); (2984, 2986); (2990, 3001); (3024, 3024); (3046, 3058);
    (3077, 3084); (3086, 3088); (3090, 3112); (3114, 3129); (3133, 3133);
    (3160, 3162); (3165, 3165); (3168, 3169); (3174, 3183); (3192, 3198);
    (3200, 3200); (3205, 3212); (3214, 3216); (3218, 3240); (3242, 3251);
    (3253, 3257); (3261, 3261); (3293, 3294); (3296, 3297); (3302, 3311);
    (3313, 3314); (3332, 3340); (3342, 3344); (3346, 3386); (3389, 3389);
    (3406, 3406); (3412, 3414); (3416, 3425); (3430, 3448); (3450, 3455);
    (3461, 3478); (3482, 3505); (3507, 3515); (3517, 3517); (3520, 3526);
    (3558, 3567); (3585, 3632); (3634, 3635); (3648, 3654); (3664, 3673);
    (3713, 3714); (3716, 3716); (3718, 3722); (3724, 3747); (3749, 3749);
    (3751, 3760); (3762, 3763); (3773, 3773); (3776, 3780); (3782, 3782);
    (3792, 3801); (3804, 3807); (3840, 3840); (3872, 3891); (3904, 3911);
    (3913, 3948); (3976, 3980); (4096, 4138); (4159, 4169); (4176, 4181);
    (4186, 4189); (4193, 4193); (4197, 4198); (4206, 4208); (4213, 4225);
    (4238, 4238); (4240, 4249); (4256, 4293); (4295, 4295); (4301, 4301);
    (4304, 4346); (4348, 4680); (4682, 4685); (4688, 4694); (4696, 4696);
    (4698, 4701); (4704, 4744); (4746, 4749); (4752, 4784); (4786, 4789);
    (4792, 4798); (4800, 4800); (4802, 4805); (4808, 4822); (4824, 4880);
    (4882, 4885); (4888, 4954); (4969, 4988); (4992, 5007); (5024, 5109);
    (5112, 5117); (5121, 5740); (5743, 5759); (5761, 5786); (5792, 5866);
    (5870, 5880); (5888, 5905); (5919, 5937); (5952, 5969); (5984, 5996);
    (5998, 6000); (6016, 6067); (6103, 6103); (6108, 6108); (6112, 6121);
    (6128, 6137); (6160, 6169); (6176, 6264); (6272, 6276); (6279, 6312);
    (6314, 6314); (6320, 6389); (6400, 6430); (6470, 6509); (6512, 6516);
    (6528, 6571); (6576, 6601); (6608, 6618); (6656, 6678); (6688, 6740);
    (6784, 6793); (6800, 6809); (6823, 6823); (6917, 6963); (6981, 6988);
    (6992, 7001); (7043, 7072); (7086, 7141); (7168, 7203); (7232, 7241);
    (7245, 7293); (7296, 7304); (7312, 7354); (7357, 7359); (7401, 7404);
    (7406, 7411); (7413, 7414); (7418, 7418); (7424, 7615); (7680, 7957);
    (7960, 7965); (7968, 8005); (8008, 8013); (8016, 8023); (8025, 8025);
    (8027, 8027); (8029, 8029); (8031, 8061); (8064, 8116); (8118, 8124);
    (8126, 8126); (8130, 8132); (8134, 8140); (8144, 8147); (8150, 8155);
    (8160, 8172); (8178, 8180); (8182, 8188); (8304, 8305); (8308, 8313);
    (8319, 8329); (8336, 8348); (8450, 8450); (8455, 8455); (8458, 8467);
    (8469, 8469); (8473, 8477); (8484, 8484); (8486, 8486); (8488, 8488);
    (8490, 8493); (8495, 8505); (8508, 8511); (8517, 8521); (8526, 8526);
    (8528, 8585); (9312, 9371); (9450, 9471); (10102, 10131); (11264, 11492);
    (11499, 11502); (11506, 11507); (11517, 11517); (11520, 11557);
    (11559, 11559); (11565, 11565); (11568, 11623); (11631, 11631);
    (11648, 11670); (11680, 11686); (11688, 11694); (11696, 11702);
    (11704, 11710); (11712, 11718); (11720, 11726); (11728, 11734);
    (11736, 11742); (11823, 11823); (12293, 12295); (12321, 12329);
    (12337, 12341); (12344, 12348); (12353, 12438); (12445, 12447);
    (12449, 12538); (12540, 12543); (12549, 12591); (12593, 12686);
    (12690, 12693); (12704, 12735); (12784, 12799); (12832, 12841);
    (12872, 12879); (12881, 12895); (12928, 12937); (12977, 12991);
    (13312, 19903); (19968, 42124); (42192, 42237); (42240, 42508);
    (42512, 42539); (42560, 42606); (42623, 42653); (42656, 42735);
    (42775, 42783); (42786, 42888); (42891, 42954); (42960, 42961);
    (42963, 42963); (42965, 42969); (42994, 43009); (43011, 43013);
    (43015, 43018); (43020, 43042); (43056, 43061); (43072, 43123);
    (43138, 43187); (43216, 43225); (43250, 43255); (43259, 43259);
    (43261, 43262); (43264, 43301); (43312, 43334); (43360, 43388);
    (43396, 43442); (43471, 43481); (43488, 43492); (43494, 43518);
    (43520, 43560); (43584, 43586); (43588, 43595); (43600, 43609);
    (43616, 43638); (43642, 43642); (43646, 43695); (43697, 43697);
    (43701, 43702); (43705, 43709); (43712, 43712); (43714, 43714);
    (43739, 43741); (43744, 43754); (43762, 43764); (43777, 43782);
    (43785, 43790); (43793, 43798); (43808, 43814); (43816, 43822);
    (43824, 43866); (43868, 43881); (43888, 44002); (44016, 44025);
    (44032, 55203); (55216, 55238); (55243, 55291); (63744, 64109);
    (64112, 64217); (64256, 64262); (64275, 64279); (64285, 64285);
    (64287, 64296); (64298, 64310); (64312, 64316); (64318, 64318);
    (64320, 64321); (64323, 64324); (64326, 64433); (64467, 64829);
    (64848, 64911); (64914, 64967); (65008, 65019); (65136, 65140);
    (65142, 65276); (65296, 65305); (65313, 65338); (65345, 65370);
    (65382, 65470); (65474, 65479); (65482, 65487); (65490, 65495);
    (65498, 65500); (65536, 65547); (65549, 65574); (65576, 65594);
    (65596, 65597); (65599, 65613); (65616, 65629); (65664, 65786);
    (65799, 65843); (65856, 65912); (65930, 65931); (66176, 66204);
    (66208, 66256); (66273, 66299); (66304, 66339); (66349, 66378);
    (66384, 66421); (66432, 66461); (66464, 66499); (66504, 66511);
    (66513, 66517); (66560, 66717); (66720, 66729); (66736, 66771);
    (66776, 66811); (66816, 66855); (66864, 66915); (66928, 66938);
    (66940, 66954); (66956, 66962); (66964, 66965); (66967, 66977);
    (66979, 66993); (66995, 67001); (67003, 67004); (67072, 67382);
    (67392, 67413); (67424, 67431); (67456, 67461); (67463, 67504);
    (67506, 67514); (67584, 67589); (67592, 67592); (67594, 67637);
    (67639, 67640); (67644, 67644); (67647, 67669); (67672, 67702);
    (67705, 67742); (67751, 67759); (67808, 67826); (67828, 67829);
    (67835, 67867); (67872, 67897); (67968, 68023); (68028, 68047);
    (68050, 68096); (68112, 68115); (68117, 68119); (68121, 68149);
    (68160, 68168); (68192, 68222); (68224, 68255); (68288, 68295);
    (68297, 68324); (68331, 68335); (68352, 68405); (68416, 68437);
    (68440, 68466); (68472, 68497); (68521, 68527); (68608, 68680);
    (68736, 68786); (68800, 68850); (68858, 68899); (68912, 68921);
    (69216, 69246); (69248, 69289); (69296, 69297); (69376, 69415);
    (69424, 69445); (69457, 69460); (69488, 69505); (69552, 69579);
    (69600, 69622); (69635, 69687); (69714, 69743); (69745, 69746);
    (69749, 69749); (69763, 69807); (69840, 69864); (69872, 69881);
    (69891, 69926); (69942, 69951); (69956, 69956); (69959, 69959);
    (69968, 70002); (70006, 70006); (70019, 70066); (70081, 70084);
    (70096, 70106); (70108, 70108); (70113, 70132); (70144, 70161);
    (70163, 70187); (70272, 70278); (70280, 70280); (70282, 70285);
    (70287, 70301); (70303, 70312); (70320, 70366); (70384, 70393);
    (70405, 70412); (70415, 70416); (70419, 70440); (70442, 70448);
    (70450, 70451); (70453, 70457); (70461, 70461); (70480, 70480);
    (70493, 70497); (70656, 70708); (70727, 70730); (70736, 70745);
    (70751, 70753); (70784, 70831); (70852, 70853); (70855, 70855);
    (70864, 70873); (71040, 71086); (71128, 71131); (71168, 71215);
    (71236, 71236); (71248, 71257); (71296, 71338); (71352, 71352);
    (71360, 71369); (71424, 71450); (71472, 71483); (71488, 71494);
    (71680, 71723); (71840, 71922); (71935, 71942); (71945, 71945);
    (71948, 71955); (71957, 71958); (71960, 71983); (71999, 71999);
    (72001, 72001); (72016, 72025); (72096, 72103); (72106, 72144);
    (72161, 72161); (72163, 72163); (72192, 72192); (72203, 72242);
    (72250, 72250); (72272, 72272); (72284, 72329); (72349, 72349);
    (72368, 72440); (72704, 72712); (72714, 72750); (72768, 72768);
    (72784, 72812); (72818, 72847); (72960, 72966); (72968, 72969);
    (72971, 73008); (73030, 73030); (73040, 73049); (73056, 73061);
    (73063, 73064); (73066, 73097); (73112, 73112); (73120, 73129);
    (73440, 73458); (73648, 73648); (73664, 73684); (73728, 74649);
    (74752, 74862); (74880, 75075); (77712, 77808); (77824, 78894);
    (82944, 83526); (92160, 92728); (92736, 92766); (92768, 92777);
    (92784, 92862); (92864, 92873); (92880, 92909); (92928, 92975);
    (92992, 92995); (93008, 93017); (93019, 93025); (93027, 93047);
    (93053, 93071); (93760, 93846); (93952, 94026); (94032, 94032);
    (94099, 94111); (94176, 94177); (94179, 94179); (94208, 100343);
    (100352, 101589); (101632, 101640); (110576, 110579); (110581, 110587);
    (110589, 110590); (110592, 110882); (110928, 110930); (110948, 110951);
    (110960, 111355); (113664, 113770); (113776, 113788); (113792, 113800);
    (113808, 113817); (119520, 119539); (119648, 119672); (119808, 119892);
    (119894, 119964); (119966, 119967); (119970, 119970); (119973, 119974);
    (119977, 119980); (119982, 119993); (119995, 119995); (119997, 120003);
    (120005, 120069); (120071, 120074); (120077, 120084); (120086, 120092);
    (120094, 120121); (120123, 120126); (120128, 120132); (120134, 120134);
    (120138, 120144); (120146, 120485); (120488, 120512); (120514, 120538);
    (120540, 120570); (120572, 120596); (120598, 120628); (120630, 120654);
    (120656, 120686); (120688, 120712); (120714, 120744); (120746, 120770);
    (120772, 120779); (120782, 120831); (122624, 122654); (123136, 123180);
    (123191, 123197); (123200, 123209); (123214, 123214); (123536, 123565);
    (123584, 123627); (123632, 123641); (124896, 124902); (124904, 124907);
    (124909, 124910); (124912, 124926); (124928, 125124); (125127, 125135);
    (125184, 125251); (125259, 125259); (125264, 125273); (126065, 126123);
    (126125, 126127); (126129, 126132); (126209, 126253); (126255, 126269);
    (126464, 126467); (126469, 126495); (126497, 126498); (126500, 126500);
    (126503, 126503); (126505, 126514); (126516, 126519); (126521, 126521);
    (126523, 126523); (126530, 126530); (126535, 126535); (126537, 126537);
    (126539, 126539); (126541, 126543); (126545, 126546); (126548, 126548);
    (126551, 126551); (126553, 126553); (126555, 126555); (126557, 126557);
    (126559, 126559); (126561, 126562); (126564, 126564); (126567, 126570);
    (126572, 126578); (126580, 126583); (126585, 126588); (126590, 126590);
    (126592, 126601); (126603, 126619); (126625, 126627); (126629, 126633);
    (126635, 126651); (127232, 127244); (130032, 130041); (131072, 173791);
    (173824, 177976); (177984, 178205); (178208, 183969); (183984, 191456);
    (194560, 195101); (196608, 201546)
].

Definition in_range (c : N) (r : N * N) : bool :=
  (fst r <=? c) && (c <=? snd r).

Definition isalnum (c : N) : bool := existsb (in_range c) alnum_ranges.

End Unicode.

(** ** The [re] and [str] operations the program uses *)

(** [\w] on a [str] pattern without [re.ASCII]: a Unicode alphanumeric or the
    underscore (sre's [SRE_UNI_IS_WORD]). *)
Definition underscore : N := 95.

Definition is_word (c : N) : bool := Unicode.isalnum c || (c =? underscore).

(** [\W] is the complement of [\w]. *)
Definition is_non_word (c : N) : bool := negb (is_word c).

(** [re.sub(p, repl, s)] for a pattern [p] that is a single character class:
    every match is one character long, matches are taken left to right, and
    each is replaced by [repl]. *)
Definition re_sub_class (cls : N -> bool) (repl s : pystr) : pystr :=
  flat_map (fun c => if cls c then repl else [c]) s.

(** [s[:n]] for a non-negative [n]. *)
Definition slice_to (n : nat) (s : pystr) : pystr := take n s.

(** [s.startswith(p)]. *)
Fixpoint startswith (s p : pystr) : bool :=
  match p, s with
  | [], _ => true
  | _ :: _, [] => false
  | a :: p', b :: s' => (a =? b) && startswith s' p'
  end.

(** [s.endswith(p)]. *)
Definition endswith (s p : pystr) : bool := startswith (rev s) (rev p).

(** The scan of [str.replace] for a non-empty [old]: [skip] counts the
    characters of the occurrence just matched that are still to be dropped. *)
Fixpoint replace_scan (old new : pystr) (skip : nat) (s : pystr) : pystr :=
  match s with
  | [] => []
  | c :: s' =>
      match skip with
      | S k => replace_scan old new k s'
      | O =>
          if startswith s old
          then new ++ replace_scan old new (length old - 1) s'
          else c :: replace_scan old new 0 s'
      end
  end.

(** [s.replace(old, new)]: every non-overlapping occurrence of [old], found
    left to right, is replaced by [new]; an empty [old] matches before every
    character and at the end. *)
Definition str_replace (s old new : pystr) : pystr :=
  match old with
  | [] => new ++ flat_map (fun c => c :: new) s
  | _ :: _ => replace_scan old new 0 s
  end.

(** ** [sanitize_field_name] *)

Definition sanitize_field_name (name : pystr) : pystr :=
  let sanitized_name := re_sub_class is_non_word (py "_") name in
  slice_to 128 sanitized_name.

(** The object name with a trailing [".csv"] removed, if there is one: what
    the specification calls stripping the suffix. *)
Definition strip_csv_suffix (s : pystr) : pystr :=
  if endswith s (py ".csv") then take (length s - 4) s else s.

(** The character set [A-Za-z0-9_]. *)
Definition is_ascii_word (c : N) : bool :=
  ((48 <=? c) && (c <=? 57)) || ((65 <=? c) && (c <=? 90))
  || ((97 <=? c) && (c <=? 122)) || (c =? 95).

(** ** Exceptions, warehouse values and the calls an invocation issues *)

Inductive exn :=
| KeyError (key : string)
| StopIteration
| FileExistsError
| FileNotFoundError
| UnicodeDecodeError
| LookupError
| NotFound
| DataCorruption
| Conflict
| ApiError (message : string).

Record SchemaField := { field_name : pystr; field_type : pystr }.

Inductive SourceFormat := CSV | NEWLINE_DELIMITED_JSON | AVRO | PARQUET | ORC.

Inductive WriteDisposition := WRITE_APPEND | WRITE_EMPTY | WRITE_TRUNCATE.

Record LoadJobConfig := {
  source_format : SourceFormat;
  skip_leading_rows : N;
  write_disposition : WriteDisposition
}.

Inductive call :=
| StorageClient
| NamedTemporaryFile
| DownloadToFilename (bucket blob filename : pystr)
| OpenBinary (filename : pystr)
| OpenText (filename : pystr) (encoding : option pystr)
| TempfileClose (filename : pystr)
| BigqueryClient
| CreateTable (dataset table : pystr) (schema : list SchemaField)
| DeleteTable (dataset table : pystr)
| LoadTableFromUri (uri dataset table : pystr) (config : LoadJobConfig)
| JobResult
| Print (message : pystr).

(** A log entry: the call and the exception it raised, if any. *)
Abbreviation entry := (call * option exn)%type.

(** ** The collaborators *)

(** What the world outside the function answers.  [fault] lets any call fail
    (credentials, network, quota, an unknown encoding name at [open], a
    rejected schema, a failed job): it sees the calls issued so far and the
    call being made.  [decode] is the text of a whole byte string under an
    encoding, [csv_reader] the records of a text.  A text file is decoded
    while it is read, a buffer at a time: when the bytes do not decode as a
    whole, [lazy_first_record] is what reading the first record does, the
    decoding error if an undecodable byte is in the part read for it, the
    record otherwise. *)
Record World := {
  fault : list entry -> call -> option exn;
  temp_name : pystr;
  blob_data : pystr -> pystr -> option bytes;
  chardet_detect : bytes -> option pystr;
  default_encoding : pystr;
  decode : pystr -> bytes -> exn + pystr;
  csv_reader : pystr -> list (list pystr);
  lazy_first_record : pystr -> bytes -> exn + list pystr
}.

(** A file opened in text mode: its encoding and the bytes behind it, which
    are decoded as they are read. *)
Record text_file := { file_encoding : pystr; file_bytes : bytes }.

(** The state an invocation runs in: local files, the warehouse's tables
    (dataset and table id to schema; rows are not modelled), and the log. *)
Record state := {
  files : gmap pystr bytes;
  tables : gmap (pystr * pystr) (list SchemaField);
  log : list entry
}.

Definition set_files (f : gmap pystr bytes) (s : state) : state :=
  {| files := f; tables := tables s; log := log s |}.

Definition set_tables (t : gmap (pystr * pystr) (list SchemaField))
    (s : state) : state :=
  {| files := files s; tables := t; log := log s |}.

Definition log_call (c : call) (o : option exn) (s : state) : state :=
  {| files := files s; tables := tables s; log := log s ++ [(c, o)] |}.

(** ** The monad of Python statements: state and exceptions *)

Definition M (A : Type) : Type := state -> (exn + A) * state.

Definition ret {A} (a : A) : M A := fun s => (inr a, s).

Definition raise {A} (e : exn) : M A := fun s => (inl e, s).

Definition bind {A B} (m : M A) (k : A -> M B) : M B := fun s =>
  match m s with
  | (inl e, s') => (inl e, s')
  | (inr a, s') => k a s'
  end.

#[export] Instance M_ret : MRet M := @ret.
#[export] Instance M_bind : MBind M := fun A B k m => bind m k.

Definition outcome_of {A} (r : exn + A) : option exn :=
  match r with inl e => Some e | inr _ => None end.

(** [d[k]] on a dict. *)
Definition getitem (d : gmap string pystr) (k : string) : M pystr :=
  match d !! k with
  | Some v => ret v
  | None => raise (KeyError k)
  end.

(** [next(it)] on an iterator that has [rest] left to yield. *)
Definition next {A} (rest : list A) : M A :=
  match rest with
  | [] => raise StopIteration
  | x :: _ => ret x
  end.

Section Program.

Variable w : World.

(** A call to a collaborator: it fails if the world makes it fail, and
    otherwise does what [sem] says; either way it is logged. *)
Definition perform {A} (c : call) (sem : M A) : M A := fun s =>
  match fault w (log s) c with
  | Some e => (inl e, log_call c (Some e) s)
  | None => let '(r, s') := sem s in (r, log_call c (outcome_of r) s')
  end.

Definition storage_Client : M unit := perform StorageClient (ret tt).

Definition bigquery_Client : M unit := perform BigqueryClient (ret tt).

Definition print (message : pystr) : M unit := perform (Print message) (ret tt).

(** The exceptions on which [download_to_filename] removes the file it was
    writing before it raises again. *)
Definition removes_download (e : exn) : bool :=
  match e with
  | NotFound | DataCorruption => true
  | _ => false
  end.

(** [blob.download_to_filename(filename)]: a missing object is [NotFound];
    on [NotFound] and [DataCorruption] the client removes [filename]. *)
Definition download_to_filename (bucket blob filename : pystr) : M unit :=
  fun s =>
    let c := DownloadToFilename bucket blob filename in
    let failed e :=
      (inl e,
       log_call c (Some e)
         (if removes_download e
          then set_files (delete filename (files s)) s else s)) in
    match fault w (log s) c with
    | Some e => failed e
    | None =>
        match blob_data w bucket blob with
        | None => failed NotFound
        | Some data =>
            (inr tt,
             log_call c None (set_files (<[filename := data]> (files s)) s))
        end
    end.

(** [open(filename, 'rb')] followed by [f.read()]. *)
Definition open_binary (filename : pystr) : M bytes :=
  perform (OpenBinary filename) (fun s =>
    match files s !! filename with
    | None => (inl FileNotFoundError, s)
    | Some data => (inr data, s)
    end).

(** [open(filename, 'r', encoding=encoding)]: [encoding=None] selects the
    platform's default encoding.  Nothing is decoded yet. *)
Definition open_text (filename : pystr) (encoding : option pystr)
    : M text_file :=
  perform (OpenText filename encoding) (fun s =>
    match files s !! filename with
    | None => (inl FileNotFoundError, s)
    | Some data =>
        (inr {| file_encoding := default (default_encoding w) encoding;
                file_bytes := data |}, s)
    end).

(** [next(csv.reader(csv_file))]: the first record of the file, read and
    decoded as far as that record needs. *)
Definition next_record (csv_file : text_file) : M (list pystr) :=
  match decode w (file_encoding csv_file) (file_bytes csv_file) with
  | inr text => next (csv_reader w text)
  | inl _ =>
      match lazy_first_record w (file_encoding csv_file)
              (file_bytes csv_file) with
      | inl e => raise e
      | inr header => ret header
      end
  end.

(** Leaving the block of a [NamedTemporaryFile]: the file is closed and, in
    the [finally] of the close, unlinked.  The unlink raises
    [FileNotFoundError] when the file is no longer there; otherwise the
    close raises what the world makes it raise, if anything. *)
Definition tempfile_close (name : pystr) : state -> option exn * state :=
  fun s =>
    let o := match files s !! name with
             | None => Some FileNotFoundError
             | Some _ => fault w (log s) (TempfileClose name)
             end in
    (o, log_call (TempfileClose name) o
          (set_files (delete name (files s)) s)).

(** [with tempfile.NamedTemporaryFile() as temp_file: body]: the file is
    created under a fresh name and is closed when the block is left,
    normally or by an exception; an exception raised by the close replaces
    the block's own outcome. *)
Definition with_NamedTemporaryFile {A} (body : pystr -> M A) : M A := fun s =>
  let enter := perform NamedTemporaryFile (fun s0 =>
    match files s0 !! temp_name w with
    | Some _ => (inl FileExistsError, s0)
    | None => (inr (temp_name w), set_files (<[temp_name w := []]> (files s0)) s0)
    end) in
  match enter s with
  | (inl e, s1) => (inl e, s1)
  | (inr name, s1) =>
      let '(r, s2) := body name s1 in
      match tempfile_close name s2 with
      | (Some e, s3) => (inl e, s3)
      | (None, s3) => (r, s3)
      end
  end.

(** [client.create_table(table)]: the warehouse refuses a table that
    exists. *)
Definition create_table (dataset table : pystr) (schema : list SchemaField)
    : M unit :=
  perform (CreateTable dataset table schema) (fun s =>
    match tables s !! (dataset, table) with
    | Some _ => (inl Conflict, s)
    | None => (inr tt, set_tables (<[(dataset, table) := schema]> (tables s)) s)
    end).

Definition load_table_from_uri (uri dataset table : pystr)
    (config : LoadJobConfig) : M unit :=
  perform (LoadTableFromUri uri dataset table config) (ret tt).

(** [load_job.result()]: returns when the job is done, raises if it failed. *)
Definition job_result : M unit := perform JobResult (ret tt).

(** *** The functions of [PythonCloudFunction.py] *)

Definition create_bq_table_from_header (dataset_id table_id : pystr)
    (header : list pystr) : M unit :=
  bigquery_Client ;;
  let schema :=
    map (fun name => {| field_name := sanitize_field_name name;
                        field_type := py "STRING" |}) header in
  create_table dataset_id table_id schema ;;
  print (py "Table " ++ table_id ++ py " created in dataset "
           ++ dataset_id ++ py ".").

Definition load_csv_to_bq (source_uri dataset_id table_id : pystr) : M unit :=
  bigquery_Client ;;
  let job_config := {| source_format := CSV;
                       skip_leading_rows := 1;
                       write_disposition := WRITE_TRUNCATE |} in
  load_table_from_uri source_uri dataset_id table_id job_config ;;
  job_result ;;
  print (py "CSV file from " ++ source_uri ++ py " loaded into table "
           ++ table_id ++ py ".").

Definition derive_table_id (file_name : pystr) : pystr :=
  str_replace file_name (py ".csv") (py "").

Definition process_csv_file (event : gmap string pystr) : M unit :=
  let bucket_name := py "csv-processing-bucket" in
  let dataset_id := py "csv_imports" in
  file_name ← getitem event "name";
  let table_id := derive_table_id file_name in
  let source_uri := py "gs://" ++ bucket_name ++ py "/" ++ file_name in
  storage_Client ;;
  header ← with_NamedTemporaryFile (fun temp_file =>
    download_to_filename bucket_name file_name temp_file ;;
    data ← open_binary temp_file;
    let encoding := chardet_detect w data in
    csv_file ← open_text temp_file encoding;
    let reader := csv_file in
    next_record reader);
  create_bq_table_from_header dataset_id table_id header ;;
  load_csv_to_bq source_uri dataset_id table_id.

End Program.

(** One invocation, from a local file system and a warehouse, with an empty
    log. *)
Definition invoke (w : World) (event : gmap string pystr)
    (fs : gmap pystr bytes) (tb : gmap (pystr * pystr) (list SchemaField))
    : (exn + unit) * state :=
  process_csv_file w event {| files := fs; tables := tb; log := [] |}.

(** ** Example worlds *)

Definition bytes_of_lines (lines : list string) : bytes :=
  flat_map (fun l => String.list_byte_of_string l ++ [Byte.x0a]) lines.

(** The codecs of the example worlds: 7-bit data under the names ["ascii"]
    and ["utf-8"]; bytes above 127 are reported as undecodable, other names
    as unknown.  The objects of the examples are shorter than one read
    buffer, so reading the first record meets every undecodable byte. *)
Definition seven_bit_decode (encoding : pystr) (data : bytes) : exn + pystr :=
  if bool_decide (encoding = py "ascii") || bool_decide (encoding = py "utf-8")
  then if forallb (fun b => Byte.to_N b <? 128) data
       then inr (map Byte.to_N data)
       else inl UnicodeDecodeError
  else inl LookupError.

Fixpoint split_on (sep : N) (s : pystr) : list pystr :=
  match s with
  | [] => [[]]
  | c :: s' =>
      if c =? sep then [] :: split_on sep s'
      else match split_on sep s' with
           | [] => [[c]]
           | f :: r => (c :: f) :: r
           end
  end.

(** The csv reader of the example worlds, for text without quotes: one
    record per line, fields separated by commas, an empty line read as the
    empty record. *)
Definition unquoted_csv_reader (text : pystr) : list (list pystr) :=
  let lines := split_on 10 text in
  let lines := match last lines with
               | Some [] => take (length lines - 1) lines
               | _ => lines
               end in
  map (fun l => match l with [] => [] | _ => split_on 44 l end) lines.

(** A world that serves [content] for every object, in which the detector
    answers [guess] and [fault] decides which calls fail. *)
Definition example_world (fault : list entry -> call -> option exn)
    (content : bytes) (guess : option pystr) : World :=
  {| fault := fault;
     temp_name := py "/tmp/tmp8x2k4q1z";
     blob_data := fun _ _ => Some content;
     chardet_detect := fun _ => guess;
     default_encoding := py "utf-8";
     decode := seven_bit_decode;
     csv_reader := unquoted_csv_reader;
     lazy_first_record := fun encoding data =>
       match seven_bit_decode encoding data with
       | inl e => inl e
       | inr _ => inl StopIteration
       end |}.

Definition no_fault : list entry -> call -> option exn := fun _ _ => None.

(** The warehouse rejects the load job. *)
Definition failing_job : list entry -> call -> option exn := fun _ c =>
  match c with
  | JobResult => Some (ApiError "400 Error while reading data")
  | _ => None
  end.

Definition contacts_csv : bytes :=
  bytes_of_lines ["Name,E-Mail,Zip Code"; "Ada,ada@example.org,10115"]%string.


Definition upload (name : string) : gmap string pystr :=
  {[ "name"%string := py name ]}.

(** An object name with [".csv"] inside and another extension at the end. *)
Definition report_csv_bak : pystr := py "report.csv.bak".

(** ['Prénom']: a header token with a non-ASCII letter (U+00E9). *)
Definition prenom : pystr := [80; 114; 233; 110; 111; 109].

(** What [sanitize_field_name] does to one character. *)
Definition clean (c : N) : N := if is_word c then c else underscore.

(** *** Reading a log *)

(** A temporary file was created. *)
Definition temp_created (l : list entry) : bool :=
  existsb (fun e => match e with
                    | (NamedTemporaryFile, None) => true
                    | _ => false
                    end) l.

(** The temporary file [name] was closed, which deletes it. *)
Definition temp_closed (name : pystr) (l : list entry) : bool :=
  existsb (fun e => match e with
                    | (TempfileClose n, _) => bool_decide (n = name)
                    | _ => false
                    end) l.

(** What follows the first load job that was accepted. *)
Fixpoint after_submit (l : list entry) : option (list entry) :=
  match l with
  | [] => None
  | (LoadTableFromUri _ _ _ _, None) :: rest => Some rest
  | _ :: rest => after_submit rest
  end.

(** What follows the first message printed: [create_bq_table_from_header]
    has returned and the load stage begins. *)
Fixpoint after_provisioning (l : list entry) : option (list entry) :=
  match l with
  | [] => None
  | (Print _, None) :: rest => Some rest
  | _ :: rest => after_provisioning rest
  end.

(** The calls of a load stage for [uri] into [dataset].[table] that ends
    with [r]: the client; then the load job, configured as CSV with one
    skipped row and [WRITE_TRUNCATE]; then the wait for the job; then the
    message.  A call that raises is the last one and gives [r]. *)
Definition load_stage (uri dataset table : pystr) (r : exn + ())
    (stage : list entry) : Prop :=
  match stage with
  | [(BigqueryClient, Some e)] => r = inl e
  | (BigqueryClient, None) :: (LoadTableFromUri u d t config, o) :: rest =>
      u = uri /\ d = dataset /\ t = table
      /\ config = {| source_format := CSV;
                     skip_leading_rows := 1;
                     write_disposition := WRITE_TRUNCATE |}
      /\ match o, rest with
         | Some e, [] => r = inl e
         | None, [(JobResult, Some e)] => r = inl e
         | None, [(JobResult, None); (Print _, Some e)] => r = inl e
         | None, [(JobResult, None); (Print _, None)] => r = inr ()
         | _, _ => False
         end
  | _ => False
  end.

(** The first call that raised: its exception and what was issued after. *)
Fixpoint first_failure (l : list entry) : option (exn * list entry) :=
  match l with
  | [] => None
  | (_, Some e) :: rest => Some (e, rest)
  | (_, None) :: rest => first_failure rest
  end.

(** The calls that go to the warehouse. *)
Definition warehouse_call (c : call) : bool :=
  match c with
  | BigqueryClient | CreateTable _ _ _ | DeleteTable _ _
  | LoadTableFromUri _ _ _ _ | JobResult => true
  | _ => false
  end.

(** [schema] has one field per header token, in header order: the sanitized
    token, of type text. *)
Definition schema_of_header (header : list pystr) (schema : list SchemaField)
    : Prop :=
  Forall2 (fun token f =>
             field_name f = sanitize_field_name token
             /\ field_type f = py "STRING") header schema.

(** [old in s]: [old] occurs in [s] at some position. *)
Fixpoint occurs (old s : pystr) : bool :=
  match s with
  | [] => startswith [] old
  | _ :: s' => startswith s old || occurs old s'
  end.

(** The entries before the first call to the warehouse, if there is one. *)
Fixpoint before_warehouse (l : list entry) : option (list entry) :=
  match l with
  | [] => None
  | e :: rest =>
      if warehouse_call e.1 then Some []
      else cons e <$> before_warehouse rest
  end.

(** The schema [create_bq_table_from_header] builds for a header. *)
Definition string_schema (header : list pystr) : list SchemaField :=
  map (fun name => {| field_name := sanitize_field_name name;
                      field_type := py "STRING" |}) header.

(** ** Running a statement *)

(** [m], run from [s], ends with a result and in a state that satisfy [Q]. *)
Definition ends {A} (m : M A) (s : state)
    (Q : exn + A -> state -> Prop) : Prop :=
  Q (m s).1 (m s).2.

(** [Q] holds of what leaving the block of the temporary file [name] makes
    of the block's outcome [r] in state [s]. *)
Definition leaves_block (w : World) {A} (name : pystr)
    (Q : exn + A -> state -> Prop) (r : exn + A) (s : state) : Prop :=
  Q (match (tempfile_close w name s).1 with Some e => inl e | None => r end)
    (tempfile_close w name s).2.

(** * Properties *)

(** ** The sanitizer *)

Lemma re_sub_class_singleton cls r s :
  re_sub_class cls [r] s = map (fun c => if cls c then r else c) s.
Proof.
  unfold re_sub_class. induction s as [|c s IH]; simpl; [done|].
  rewrite IH. by destruct (cls c).
Qed.

Lemma sanitize_field_name_map name :
  sanitize_field_name name = take 128 (map clean name).
Proof.
  unfold sanitize_field_name, slice_to.
  change (py "_") with [underscore]. rewrite re_sub_class_singleton.
  f_equal. apply map_ext. intros c. unfold clean, is_non_word.
  by destruct (is_word c).
Qed.

Lemma is_word_underscore : is_word underscore = true.
Proof. reflexivity. Qed.

Lemma is_word_clean c : is_word (clean c) = true.
Proof.
  unfold clean. destruct (is_word c) eqn:E; [done | apply is_word_underscore].
Qed.

Lemma clean_word c : is_word c = true -> clean c = c.
Proof. unfold clean. by intros ->. Qed.

Lemma clean_idem c : clean (clean c) = clean c.
Proof. apply clean_word, is_word_clean. Qed.

(** On the ASCII range, [\w] is exactly [A-Za-z0-9_]. *)
Lemma is_word_ascii c : c < 128 -> is_word c = is_ascii_word c.
Proof.
  intros Hc.
  assert (Hall : forallb (fun n => Bool.eqb (is_word (N.of_nat n))
                                     (is_ascii_word (N.of_nat n)))
                   (seq 0 128) = true) by (vm_compute; reflexivity).
  rewrite forallb_forall in Hall.
  specialize (Hall (N.to_nat c)).
  rewrite N2Nat.id in Hall. apply Bool.eqb_prop, Hall.
  apply in_seq. lia.
Qed.

Lemma Forall_take_map_clean (P : N -> Prop) n name :
  (forall c, P (clean c)) -> Forall P (take n (map clean name)).
Proof.
  intros HP. apply Forall_take, Forall_forall.
  intros c Hc. apply list_elem_of_fmap in Hc as (c' & -> & _). apply HP.
Qed.

(** C1, as the specification states it, fails.  The pattern [\W] is matched
    without [re.ASCII], so a non-ASCII letter is a word character and is
    kept: the header token ['Prénom'] is returned unchanged, and its third
    character is outside [A-Za-z0-9_]. *)
Lemma sanitize_field_name_keeps_non_ascii_letter :
  sanitize_field_name prenom = prenom
  /\ ~ ((length (sanitize_field_name prenom) <= 128)%nat
        /\ Forall (fun c => is_ascii_word c = true)
             (sanitize_field_name prenom)).
Proof.
  split; [vm_compute; reflexivity|].
  change (sanitize_field_name prenom) with prenom. unfold prenom.
  intros [_ H].
  apply Forall_cons_1 in H as [_ H]. apply Forall_cons_1 in H as [_ H].
  apply Forall_cons_1 in H as [H _]. vm_compute in H. discriminate.
Qed.

(** C1, amended: for every input string, [sanitize_field_name] returns the
    first 128 characters of the input in which every character that is not a
    word character of Python's [\w] (a Unicode alphanumeric or ['_']) is
    replaced by ['_']; the result has length at most 128, all its characters
    are word characters, and those of them that are ASCII are in
    [A-Za-z0-9_]. *)
Theorem sanitize_field_name_word_characters (name : pystr) :
  sanitize_field_name name = take 128 (map clean name)
  /\ (length (sanitize_field_name name) <= 128)%nat
  /\ Forall (fun c => is_word c = true) (sanitize_field_name name)
  /\ Forall (fun c => (128 <=? c) || is_ascii_word c = true)
       (sanitize_field_name name).
Proof.
  rewrite sanitize_field_name_map. split_and!.
  - done.
  - rewrite length_take. lia.
  - apply Forall_take_map_clean, is_word_clean.
  - apply Forall_take_map_clean. intros c.
    destruct (N.leb_spec 128 (clean c)) as [|Hlt]; [done|].
    rewrite <- is_word_ascii by done. apply is_word_clean.
Qed.

(** C5: [sanitize_field_name] is idempotent. *)
Theorem sanitize_field_name_idempotent (x : pystr) :
  sanitize_field_name (sanitize_field_name x) = sanitize_field_name x.
Proof.
  rewrite !sanitize_field_name_map.
  rewrite <- (firstn_map clean), map_map.
  rewrite (map_ext _ clean) by apply clean_idem.
  rewrite take_take. f_equal.
Qed.

(** C10: the length of [sanitize_field_name x] is the smaller of the length
    of [x] and 128. *)
Theorem sanitize_field_name_length (x : pystr) :
  length (sanitize_field_name x) = (length x `min` 128)%nat.
Proof.
  rewrite sanitize_field_name_map, length_take, length_map. lia.
Qed.

(** ** The table id *)

(** C2: [process_csv_file] derives the table id with [str.replace], which
    removes every occurrence of [".csv"], not only a trailing one.  For the
    object ["report.csv.bak"], which does not end in [".csv"], the table id
    is ["report.bak"] and not the unchanged name; for ["a.csv.csv"] it is
    ["a"] and not ["a.csv"]. *)
Theorem derive_table_id_removes_inner_csv :
  endswith report_csv_bak (py ".csv") = false
  /\ derive_table_id report_csv_bak = py "report.bak"
  /\ derive_table_id report_csv_bak <> report_csv_bak
  /\ endswith (py "a.csv.csv") (py ".csv") = true
  /\ strip_csv_suffix (py "a.csv.csv") = py "a.csv"
  /\ derive_table_id (py "a.csv.csv") = py "a".
Proof. split_and!; try (vm_compute; reflexivity). vm_compute. discriminate. Qed.


(** The two examples of the specification, on which [str.replace] and
    suffix stripping agree. *)
Example derive_table_id_examples :
  derive_table_id (py "orders-2024.csv") = py "orders-2024"
  /\ derive_table_id (py "report") = py "report".
Proof. split; vm_compute; reflexivity. Qed.

(** ** Rules for running statements *)

Section Rules.

Context (w : World).
Implicit Types (s : state) (c : call).

Lemma ends_ret {A} (a : A) s Q : Q (inr a) s -> ends (mret a) s Q.
Proof. done. Qed.

Lemma ends_raise {A} (e : exn) s (Q : exn + A -> state -> Prop) :
  Q (inl e) s -> ends (raise e) s Q.
Proof. done. Qed.

Lemma ends_bind {A B} (m : M A) (k : A -> M B) s Q :
  ends m s (fun r s' => match r with
                        | inl e => Q (inl e) s'
                        | inr a => ends (k a) s' Q
                        end) ->
  ends (m ≫= k) s Q.
Proof.
  unfold ends, mbind, M_bind, bind. by destruct (m s) as [[e|a] s'].
Qed.

Lemma ends_perform {A} c (sem : M A) s Q :
  (forall e, fault w (log s) c = Some e ->
             Q (inl e) (log_call c (Some e) s)) ->
  (fault w (log s) c = None ->
   ends sem s (fun r s' => Q r (log_call c (outcome_of r) s'))) ->
  ends (perform w c sem) s Q.
Proof.
  unfold ends, perform. intros Hfail Hok.
  destruct (fault w (log s) c) as [e|]; [by apply Hfail|].
  specialize (Hok eq_refl). by destruct (sem s).
Qed.

Lemma leaves_block_cases {A} (name : pystr) (Q : exn + A -> state -> Prop)
    (r : exn + A) s :
  let closed o :=
    log_call (TempfileClose name) o (set_files (delete name (files s)) s) in
  (files s !! name = None ->
   Q (inl FileNotFoundError) (closed (Some FileNotFoundError))) ->
  (forall data e, files s !! name = Some data ->
     fault w (log s) (TempfileClose name) = Some e ->
     Q (inl e) (closed (Some e))) ->
  (forall data, files s !! name = Some data ->
     fault w (log s) (TempfileClose name) = None ->
     Q r (closed None)) ->
  leaves_block w name Q r s.
Proof.
  intros closed Hgone Hfail Hok. unfold leaves_block, tempfile_close.
  destruct (files s !! name) as [data|] eqn:Hfile; cbn [fst snd]; [|eauto].
  destruct (fault w (log s) (TempfileClose name)) as [e|] eqn:Hf; eauto.
Qed.

Lemma ends_with_NamedTemporaryFile {A} (body : pystr -> M A) s Q :
  (forall e, fault w (log s) NamedTemporaryFile = Some e ->
             Q (inl e) (log_call NamedTemporaryFile (Some e) s)) ->
  (fault w (log s) NamedTemporaryFile = None ->
   is_Some (files s !! temp_name w) ->
   Q (inl FileExistsError)
     (log_call NamedTemporaryFile (Some FileExistsError) s)) ->
  (fault w (log s) NamedTemporaryFile = None ->
   files s !! temp_name w = None ->
   ends (body (temp_name w))
     (log_call NamedTemporaryFile None
        (set_files (<[temp_name w := []]> (files s)) s))
     (leaves_block w (temp_name w) Q)) ->
  ends (with_NamedTemporaryFile w body) s Q.
Proof.
  unfold ends, with_NamedTemporaryFile, perform, leaves_block.
  intros Hfail Htaken Hbody.
  destruct (fault w (log s) NamedTemporaryFile) as [e|]; [by apply Hfail|].
  destruct (files s !! temp_name w) as [d|] eqn:Hd; [by eauto|].
  specialize (Hbody eq_refl eq_refl).
  cbn [fst snd outcome_of log_call set_files files tables log] in *.
  destruct (body (temp_name w) _) as [r s2]. cbn [fst snd] in Hbody.
  by destruct (tempfile_close w (temp_name w) s2) as [[e|] s3].
Qed.

Lemma ends_call c s (Q : exn + () -> state -> Prop) :
  (forall e, fault w (log s) c = Some e ->
             Q (inl e) (log_call c (Some e) s)) ->
  (fault w (log s) c = None -> Q (inr ()) (log_call c None s)) ->
  ends (perform w c (ret ())) s Q.
Proof. intros Hfail Hok. apply ends_perform; [done|]. apply Hok. Qed.

Lemma ends_download_to_filename bucket blob filename s
    (Q : exn + () -> state -> Prop) :
  let c := DownloadToFilename bucket blob filename in
  let removed := set_files (delete filename (files s)) s in
  (forall e, fault w (log s) c = Some e -> removes_download e = true ->
             Q (inl e) (log_call c (Some e) removed)) ->
  (forall e, fault w (log s) c = Some e -> removes_download e = false ->
             Q (inl e) (log_call c (Some e) s)) ->
  (fault w (log s) c = None -> blob_data w bucket blob = None ->
   Q (inl NotFound) (log_call c (Some NotFound) removed)) ->
  (forall data, fault w (log s) c = None ->
     blob_data w bucket blob = Some data ->
     Q (inr ())
       (log_call c None (set_files (<[filename := data]> (files s)) s))) ->
  ends (download_to_filename w bucket blob filename) s Q.
Proof.
  intros c removed Hrem Hkeep Hnone Hsome.
  unfold ends, download_to_filename.
  destruct (fault w (log s) _) as [e|] eqn:Hf.
  - destruct (removes_download e) eqn:Hr; cbn [fst snd]; eauto.
  - destruct (blob_data w bucket blob) as [data|] eqn:Hb; cbn [fst snd];
      eauto.
Qed.

Lemma ends_open_binary filename s (Q : exn + bytes -> state -> Prop) :
  let c := OpenBinary filename in
  (forall e, fault w (log s) c = Some e ->
             Q (inl e) (log_call c (Some e) s)) ->
  (fault w (log s) c = None -> files s !! filename = None ->
   Q (inl FileNotFoundError) (log_call c (Some FileNotFoundError) s)) ->
  (forall data, fault w (log s) c = None ->
     files s !! filename = Some data ->
     Q (inr data) (log_call c None s)) ->
  ends (open_binary w filename) s Q.
Proof.
  intros c Hfail Hnone Hsome. apply ends_perform; [done|]. intros Hf.
  unfold ends. destruct (files s !! filename) as [data|] eqn:Hb; eauto.
Qed.

Lemma ends_open_text filename encoding s
    (Q : exn + text_file -> state -> Prop) :
  let c := OpenText filename encoding in
  (forall e, fault w (log s) c = Some e ->
             Q (inl e) (log_call c (Some e) s)) ->
  (fault w (log s) c = None -> files s !! filename = None ->
   Q (inl FileNotFoundError) (log_call c (Some FileNotFoundError) s)) ->
  (forall data, fault w (log s) c = None ->
     files s !! filename = Some data ->
     Q (inr {| file_encoding := default (default_encoding w) encoding;
               file_bytes := data |}) (log_call c None s)) ->
  ends (open_text w filename encoding) s Q.
Proof.
  intros c Hfail Hnone Hsome. apply ends_perform; [done|]. intros Hf.
  unfold ends. destruct (files s !! filename) as [data|] eqn:Hb; eauto.
Qed.

Lemma ends_next_record encoding data s
    (Q : exn + list pystr -> state -> Prop) :
  (forall text, decode w encoding data = inr text ->
     csv_reader w text = [] -> Q (inl StopIteration) s) ->
  (forall text header records, decode w encoding data = inr text ->
     csv_reader w text = header :: records -> Q (inr header) s) ->
  (forall e e', decode w encoding data = inl e ->
     lazy_first_record w encoding data = inl e' -> Q (inl e') s) ->
  (forall e header, decode w encoding data = inl e ->
     lazy_first_record w encoding data = inr header -> Q (inr header) s) ->
  ends (next_record w {| file_encoding := encoding; file_bytes := data |})
    s Q.
Proof.
  intros Hempty Hrecord Hbad Hgood. unfold ends, next_record.
  cbn [file_encoding file_bytes].
  destruct (decode w encoding data) as [e|text] eqn:Hd.
  - destruct (lazy_first_record w encoding data) eqn:Hl;
      unfold raise, ret; cbn [fst snd]; eauto.
  - unfold next. destruct (csv_reader w text) eqn:Hc;
      unfold raise, ret; cbn [fst snd]; eauto.
Qed.

Lemma ends_create_table dataset table schema s
    (Q : exn + () -> state -> Prop) :
  let c := CreateTable dataset table schema in
  (forall e, fault w (log s) c = Some e ->
             Q (inl e) (log_call c (Some e) s)) ->
  (fault w (log s) c = None -> is_Some (tables s !! (dataset, table)) ->
   Q (inl Conflict) (log_call c (Some Conflict) s)) ->
  (fault w (log s) c = None -> tables s !! (dataset, table) = None ->
   Q (inr ())
     (log_call c None
        (set_tables (<[(dataset, table) := schema]> (tables s)) s))) ->
  ends (create_table w dataset table schema) s Q.
Proof.
  intros c Hfail Hsome Hnone. apply ends_perform; [done|]. intros Hf.
  unfold ends. destruct (tables s !! (dataset, table)) eqn:Hb; eauto.
Qed.

End Rules.

Ltac unfold_calls :=
  unfold process_csv_file, create_bq_table_from_header, load_csv_to_bq,
    load_table_from_uri, job_result, storage_Client, bigquery_Client, print.

Ltac tidy :=
  cbn beta iota zeta delta
    [fst snd outcome_of log_call set_files set_tables files tables log app]
    in *.

(** Paths on which a file just written is missing, or a file just removed
    is there, do not exist. *)
Ltac absurd_path :=
  match goal with
  | H : <[?k := _]> _ !! ?k = None |- _ =>
      rewrite lookup_insert_eq in H; discriminate H
  | H : delete ?k _ !! ?k = Some _ |- _ =>
      rewrite lookup_delete_eq in H; discriminate H
  end.

Ltac run_step :=
  tidy;
  first
    [ absurd_path
    | lazymatch goal with
      | |- ends (mbind _ _) _ _ => apply ends_bind
      | |- ends (perform _ _ (ret ())) _ _ =>
          apply ends_call; [intros ? ? | intros ?]
      | |- ends (with_NamedTemporaryFile _ _) _ _ =>
          apply ends_with_NamedTemporaryFile;
          [intros ? ? | intros ? ? | intros ? ?]
      | |- leaves_block _ _ _ _ _ =>
          apply leaves_block_cases; [intros ? | intros ? ? ? ? | intros ? ? ?]
      | |- ends (download_to_filename _ _ _ _) _ _ =>
          apply ends_download_to_filename;
          [intros ? ? ? | intros ? ? ? | intros ? ? | intros ? ? ?]
      | |- ends (open_binary _ _) _ _ =>
          apply ends_open_binary; [intros ? ? | intros ? ? | intros ? ? ?]
      | |- ends (open_text _ _ _) _ _ =>
          apply ends_open_text; [intros ? ? | intros ? ? | intros ? ? ?]
      | |- ends (next_record _ _) _ _ =>
          apply ends_next_record;
          [intros ? ? ? | intros ? ? ? ? ? | intros ? ? ? ? | intros ? ? ? ?]
      | |- ends (create_table _ _ _ _) _ _ =>
          apply ends_create_table; [intros ? ? | intros ? ? | intros ? ?]
      | |- ends (mret _) _ _ => apply ends_ret
      | |- ends (ret _) _ _ => apply ends_ret
      | |- ends (raise _) _ _ => apply ends_raise
      | |- ends (getitem ?d ?k) _ _ =>
          unfold getitem; destruct (d !! k) eqn:?
      end ].

(** Symbolic execution of a statement: one goal per path. *)
Ltac run := unfold_calls; repeat run_step; tidy.

(** The local files once the temporary file is gone. *)
Ltac files_back :=
  repeat first
    [ rewrite delete_insert_eq
    | rewrite (delete_id (delete _ _)) by apply lookup_delete_eq ];
  try (rewrite delete_id by done).

Lemma ends_elim {A} (m : M A) s Q : ends m s Q -> Q (m s).1 (m s).2.
Proof. done. Qed.

Lemma invoke_ends w event fs tb (Q : exn + () -> state -> Prop) :
  ends (process_csv_file w event) {| files := fs; tables := tb; log := [] |} Q ->
  Q (invoke w event fs tb).1 (invoke w event fs tb).2.
Proof. done. Qed.

Lemma schema_of_header_map header :
  schema_of_header header
    (map (fun name => {| field_name := sanitize_field_name name;
                         field_type := py "STRING" |}) header).
Proof.
  unfold schema_of_header. induction header as [|token header IH]; simpl.
  - constructor.
  - constructor; [done | apply IH].
Qed.

(** ** The pipeline *)

(** C9: on every exit path the temporary file is gone when the invocation
    ends: the local files are what they were before it, the temporary file
    was closed (which deletes it) exactly when it had been created, and its
    name is then absent. *)
Theorem temporary_file_removed (w : World) (event : gmap string pystr)
    (fs : gmap pystr bytes) (tb : gmap (pystr * pystr) (list SchemaField)) :
  let s' := (invoke w event fs tb).2 in
  files s' = fs
  /\ temp_closed (temp_name w) (log s') = temp_created (log s')
  /\ (if temp_created (log s') then files s' !! temp_name w = None else True).
Proof.
  apply (invoke_ends w event fs tb (fun _ s' =>
    files s' = fs
    /\ temp_closed (temp_name w) (log s') = temp_created (log s')
    /\ (if temp_created (log s') then files s' !! temp_name w = None
        else True))).
  run.
  all: cbn [temp_closed temp_created existsb orb];
    rewrite ?bool_decide_eq_true_2 by done; cbn [orb].
  all: files_back.
  all: done.
Qed.

(** C6: every load job the invocation submits is configured with the CSV
    source format, one skipped leading row and [WRITE_TRUNCATE]; once a job
    is accepted the next call is the wait for its result; a failed job is
    the invocation's failure and nothing follows it; and the invocation
    succeeds only after the wait has returned.  The load stage itself, in
    [load_csv_to_bq] and in every invocation that reaches it, makes its
    client, then submits this job for the object's URI and the derived
    table, then waits for it, then prints. *)
Theorem load_job_configured_and_awaited (w : World)
    (event : gmap string pystr) (fs : gmap pystr bytes)
    (tb : gmap (pystr * pystr) (list SchemaField)) :
  let r := (invoke w event fs tb).1 in
  let s' := (invoke w event fs tb).2 in
  Forall (fun e => match e.1 with
                   | LoadTableFromUri _ _ _ config =>
                       config = {| source_format := CSV;
                                   skip_leading_rows := 1;
                                   write_disposition := WRITE_TRUNCATE |}
                   | _ => True
                   end) (log s')
  /\ match after_submit (log s') with
     | None => True
     | Some ((JobResult, Some e) :: rest) => rest = [] /\ r = inl e
     | Some ((JobResult, None) :: rest) =>
         exists message o, rest = [(Print message, o)]
           /\ r = match o with Some e => inl e | None => inr () end
     | Some _ => False
     end
  /\ match r with
     | inr _ => exists rest,
         after_submit (log s') = Some ((JobResult, None) :: rest)
     | inl _ => True
     end
  /\ match event !! "name"%string, after_provisioning (log s') with
     | Some file_name, Some stage =>
         load_stage (py "gs://csv-processing-bucket/" ++ file_name)
           (py "csv_imports") (derive_table_id file_name) r stage
     | _, _ => True
     end
  /\ (forall source_uri dataset_id table_id,
        let x := load_csv_to_bq w source_uri dataset_id table_id
                   {| files := fs; tables := tb; log := [] |} in
        load_stage source_uri dataset_id table_id x.1 (log x.2)).
Proof.
  cbv zeta.
  split_and!.
  5: { intros source_uri dataset_id table_id.
       pattern (load_csv_to_bq w source_uri dataset_id table_id
                  {| files := fs; tables := tb; log := [] |}).1,
               (load_csv_to_bq w source_uri dataset_id table_id
                  {| files := fs; tables := tb; log := [] |}).2.
       apply ends_elim. run. all: cbn [load_stage]; by repeat split. }
  all: pattern (invoke w event fs tb).1, (invoke w event fs tb).2;
    apply invoke_ends; run.
  all: cbn [after_submit after_provisioning load_stage].
  all: try done.
  all: try (repeat (first [apply Forall_nil | apply Forall_cons; split]); done).
  all: try (repeat split; done).
  all: eauto.
Qed.
(** C7: the schema handed to the warehouse has one field per header token,
    in header order, named by [sanitize_field_name] of the token and of type
    ["STRING"]; on success it is the schema of the created table; and the
    header [["Name"; "E-Mail"; "Zip Code"]] yields the columns ["Name"],
    ["E_Mail"], ["Zip_Code"], each of type ["STRING"]. *)
Theorem schema_built_from_header (w : World) (dataset_id table_id : pystr)
    (header : list pystr) (fs : gmap pystr bytes)
    (tb : gmap (pystr * pystr) (list SchemaField)) :
  let run := create_bq_table_from_header w dataset_id table_id header
               {| files := fs; tables := tb; log := [] |} in
  Forall (fun e => match e.1 with
                   | CreateTable d t schema =>
                       d = dataset_id /\ t = table_id
                       /\ schema_of_header header schema
                   | _ => True
                   end) (log run.2)
  /\ match run.1 with
     | inr _ => exists schema,
         tables run.2 !! (dataset_id, table_id) = Some schema
         /\ schema_of_header header schema
     | inl _ => True
     end
  /\ tables (create_bq_table_from_header
               (example_world no_fault contacts_csv None)
               (py "csv_imports") (py "contacts")
               [py "Name"; py "E-Mail"; py "Zip Code"]
               {| files := ∅; tables := ∅; log := [] |}).2
       !! (py "csv_imports", py "contacts")
     = Some [ {| field_name := py "Name"; field_type := py "STRING" |};
              {| field_name := py "E_Mail"; field_type := py "STRING" |};
              {| field_name := py "Zip_Code"; field_type := py "STRING" |} ].
Proof.
  split_and!; [| |vm_compute; reflexivity].
  - apply (ends_elim (create_bq_table_from_header w dataset_id table_id header)
             _ (fun _ s' => Forall _ (log s'))).
    run.
    all: repeat (first [apply Forall_nil | apply Forall_cons; split]);
      try done.
    all: split_and!; try done; apply schema_of_header_map.
  - apply (ends_elim (create_bq_table_from_header w dataset_id table_id header)
             _ (fun r s' => match r with
                            | inr _ => exists schema,
                                tables s' !! (dataset_id, table_id)
                                = Some schema
                                /\ schema_of_header header schema
                            | inl _ => True
                            end)).
    run; try done.
    all: eexists; split; [apply lookup_insert_eq | apply schema_of_header_map].
Qed.

(** C8: once a call has raised, the invocation fails and nothing is issued
    after that call except the closing of the temporary file, when the
    failure is inside the [with] block; an invocation that fails without a
    call having raised (a missing event key, a reader that raises) has
    issued no warehouse call; no table is ever deleted, a table that was
    created is still there when the invocation ends, and so are the tables
    that existed before.  In the example the load job fails after the table
    was created, and the table remains. *)
Theorem failure_aborts_without_rollback (w : World)
    (event : gmap string pystr) (fs : gmap pystr bytes)
    (tb : gmap (pystr * pystr) (list SchemaField)) :
  (let x := invoke (example_world failing_job contacts_csv
                      (Some (py "ascii")))
              (upload "contacts.csv") ∅ ∅ in
   x.1 = inl (ApiError "400 Error while reading data")
   /\ is_Some (tables x.2 !! (py "csv_imports", py "contacts")))
  /\ let r := (invoke w event fs tb).1 in
     let s' := (invoke w event fs tb).2 in
     match first_failure (log s') with
     | Some (_, issued_after) =>
         (exists e, r = inl e)
         /\ (issued_after = []
             \/ exists o,
                  issued_after = [(TempfileClose (temp_name w), o)])
     | None =>
         match r with
         | inr _ => True
         | inl _ =>
             log s' = []
             \/ (last (log s') = Some (TempfileClose (temp_name w), None)
                 /\ forallb (fun e => negb (warehouse_call e.1)) (log s')
                    = true)
         end
     end
     /\ Forall (fun e => match e.1 with
                         | DeleteTable _ _ => False
                         | _ => True
                         end) (log s')
     /\ Forall (fun e => match e with
                         | (CreateTable d t schema, None) =>
                             tables s' !! (d, t) = Some schema
                         | _ => True
                         end) (log s')
     /\ tb ⊆ tables s'.
Proof.
  split; [split; [vm_compute; reflexivity | vm_compute; eauto]|].
  cbv zeta.
  pattern (invoke w event fs tb).1, (invoke w event fs tb).2.
  apply invoke_ends.
  run.
  all: cbn [first_failure].
  all: split; [|split; [|split]].
  all: try (repeat (first [apply Forall_nil | apply Forall_cons; split]);
            first [done | apply lookup_insert_eq]).
  all: try done.
  all: try (by apply insert_subseteq).
  all: try (split; [by eexists|]; first [by left | right; by eexists]).
  all: try (by left).
  all: try (right; done).
Qed.

(** Use the facts known about the world on the current path. *)
Ltac known_path Hfault :=
  repeat match goal with
    | H : fault _ _ _ = Some _ |- _ => rewrite Hfault in H; discriminate H
    | H : <[?k := _]> _ !! ?k = _ |- _ => rewrite lookup_insert_eq in H
    | H : is_Some (_ !! _) |- _ => destruct H as [? H]
    end;
  simplify_eq.

(** Two facts about the same answer of the world give one. *)
Ltac same_path :=
  repeat (match goal with
          | H1 : ?x = _, H2 : ?x = _ |- _ => rewrite H1 in H2
          end; simplify_eq).

(** C3, as the specification states it, fails: on a zero-byte object the
    invocation ends with the reader's own [StopIteration], not with a
    distinct empty-file error. *)
Lemma empty_file_raises_exhaustion_fault :
  let r := (invoke (example_world no_fault [] None)
              (upload "contacts.csv") ∅ ∅).1 in
  r = inl StopIteration
  /\ ~ (exists e, r = inl e /\ e <> StopIteration).
Proof.
  split; [vm_compute; reflexivity|].
  intros (e & He & Hne). vm_compute in He. congruence.
Qed.

(** C3, amended: when the downloaded and decoded file contains no record,
    [next(reader)] raises [StopIteration], which leaves the invocation
    uncaught; the temporary file is closed and no warehouse call is
    issued. *)
Theorem no_record_raises_StopIteration (w : World)
    (event : gmap string pystr) (fs : gmap pystr bytes)
    (tb : gmap (pystr * pystr) (list SchemaField))
    (file_name : pystr) (data : bytes) (text : pystr) :
  event !! "name"%string = Some file_name ->
  (forall l c, fault w l c = None) ->
  fs !! temp_name w = None ->
  blob_data w (py "csv-processing-bucket") file_name = Some data ->
  decode w (default (default_encoding w) (chardet_detect w data)) data
    = inr text ->
  csv_reader w text = [] ->
  (invoke w event fs tb).1 = inl StopIteration
  /\ files (invoke w event fs tb).2 = fs
  /\ tables (invoke w event fs tb).2 = tb
  /\ log (invoke w event fs tb).2
     = [ (StorageClient, None);
         (NamedTemporaryFile, None);
         (DownloadToFilename (py "csv-processing-bucket") file_name
            (temp_name w), None);
         (OpenBinary (temp_name w), None);
         (OpenText (temp_name w) (chardet_detect w data), None);
         (TempfileClose (temp_name w), None) ].
Proof.
  intros Hname Hfault Hfresh Hblob Hdecode Hcsv.
  pattern (invoke w event fs tb).1, (invoke w event fs tb).2.
  apply invoke_ends.
  run; known_path Hfault; same_path; try congruence.
  files_back. done.
Qed.

Lemma no_record_raises_StopIteration_witness :
  let x := invoke (example_world no_fault [] None)
             (upload "contacts.csv") ∅ ∅ in
  x.1 = inl StopIteration
  /\ files x.2 = ∅
  /\ tables x.2 = ∅
  /\ log x.2
     = [ (StorageClient, None);
         (NamedTemporaryFile, None);
         (DownloadToFilename (py "csv-processing-bucket") (py "contacts.csv")
            (py "/tmp/tmp8x2k4q1z"), None);
         (OpenBinary (py "/tmp/tmp8x2k4q1z"), None);
         (OpenText (py "/tmp/tmp8x2k4q1z") None, None);
         (TempfileClose (py "/tmp/tmp8x2k4q1z"), None) ].
Proof.
  apply (no_record_raises_StopIteration (example_world no_fault [] None)
           (upload "contacts.csv") ∅ ∅ (py "contacts.csv") [] []).
  - reflexivity.
  - intros l c. reflexivity.
  - reflexivity.
  - reflexivity.
  - reflexivity.
  - reflexivity.
Defined.




(** ** More on the sanitizer *)

(** X1: a token made only of word characters and at most 128 characters
    long is returned unchanged. *)
Theorem sanitize_field_name_fixes_word_tokens (name : pystr) :
  Forall (fun c => is_word c = true) name ->
  (length name <= 128)%nat ->
  sanitize_field_name name = name.
Proof.
  intros Hword Hlen. rewrite sanitize_field_name_map.
  rewrite take_ge by (rewrite length_map; lia).
  induction Hword as [|c name Hc _ IH]; [done|].
  simpl in *. rewrite clean_word by done. f_equal. apply IH. lia.
Qed.

Lemma sanitize_field_name_fixes_word_tokens_witness :
  sanitize_field_name (py "Zip_Code") = py "Zip_Code".
Proof.
  apply sanitize_field_name_fixes_word_tokens.
  - repeat constructor.
  - vm_compute. lia.
Defined.

(** X2: whatever follows the first 128 characters is ignored, so two
    tokens with the same first 128 characters get the same field name. *)
Theorem sanitize_field_name_ignores_tail (x y : pystr) :
  (128 <= length x)%nat ->
  sanitize_field_name (x ++ y) = sanitize_field_name x.
Proof.
  intros Hlen. rewrite !sanitize_field_name_map, map_app.
  apply take_app_le. rewrite length_map. lia.
Qed.

Lemma sanitize_field_name_ignores_tail_witness :
  sanitize_field_name (replicate 128 97 ++ py "_2024")
  = sanitize_field_name (replicate 128 97).
Proof.
  apply sanitize_field_name_ignores_tail. rewrite length_replicate. lia.
Defined.

(** X3: a leading digit is kept: the result can start with a digit. *)
Theorem sanitize_field_name_keeps_leading_digit (d : N) (rest : pystr) :
  48 <= d <= 57 ->
  head (sanitize_field_name (d :: rest)) = Some d.
Proof.
  intros Hd. rewrite sanitize_field_name_map. simpl.
  rewrite clean_word; [done|].
  rewrite is_word_ascii by lia. unfold is_ascii_word.
  destruct (N.leb_spec 48 d), (N.leb_spec d 57); first [lia | done].
Qed.

Lemma sanitize_field_name_keeps_leading_digit_witness :
  head (sanitize_field_name (py "2024 total")) = Some 50.
Proof.
  apply (sanitize_field_name_keeps_leading_digit 50 (py "024 total")). lia.
Defined.

(** X4: a token without any word character becomes a run of underscores
    of the token's length, capped at 128; it does not become empty. *)
Theorem sanitize_field_name_all_non_word (name : pystr) :
  Forall (fun c => is_word c = false) name ->
  sanitize_field_name name
  = replicate (length name `min` 128) underscore.
Proof.
  intros Hnon. rewrite sanitize_field_name_map.
  assert (Hmap : map clean name = replicate (length name) underscore).
  { induction Hnon as [|c name Hc _ IH]; [done|].
    simpl. unfold clean at 1. rewrite Hc. by f_equal. }
  rewrite Hmap, take_replicate. f_equal. lia.
Qed.

Lemma sanitize_field_name_all_non_word_witness :
  sanitize_field_name (py "-/-") = replicate (3 `min` 128) underscore.
Proof.
  apply (sanitize_field_name_all_non_word (py "-/-")). repeat constructor.
Defined.

(** X5: sanitizing a concatenation is concatenating the sanitized parts
    and cutting at 128 characters. *)
Theorem sanitize_field_name_app (x y : pystr) :
  sanitize_field_name (x ++ y)
  = take 128 (sanitize_field_name x ++ sanitize_field_name y).
Proof.
  rewrite !sanitize_field_name_map, map_app.
  destruct (decide (128 <= length x)%nat) as [Hge|Hlt].
  - rewrite !take_app_le by (rewrite ?length_take, ?length_map; lia).
    by rewrite take_take.
  - rewrite (take_ge (map clean x)) by (rewrite length_map; lia).
    rewrite !take_app_ge by (rewrite length_map; lia).
    rewrite take_take. do 2 f_equal. rewrite length_map. lia.
Qed.

(** X6: two tokens that differ only in which non-word character stands at
    one position get the same field name. *)
Theorem sanitize_field_name_collision (x y : pystr) (a b : N) :
  is_word a = false -> is_word b = false ->
  sanitize_field_name (x ++ a :: y) = sanitize_field_name (x ++ b :: y).
Proof.
  intros Ha Hb. rewrite !sanitize_field_name_map, !map_app. cbn [map].
  unfold clean at 2 5. by rewrite Ha, Hb.
Qed.

Lemma sanitize_field_name_collision_witness :
  sanitize_field_name (py "E" ++ 45 :: py "Mail")
  = sanitize_field_name (py "E" ++ 32 :: py "Mail").
Proof. apply sanitize_field_name_collision; reflexivity. Defined.

(** ** More on the table id *)

Lemma startswith_app (s t p : pystr) :
  (length p <= length s)%nat -> startswith (s ++ t) p = startswith s p.
Proof.
  revert s. induction p as [|a p IH]; intros s Hlen.
  - by destruct s, t.
  - destruct s as [|b s]; simpl in *; [lia|].
    rewrite IH by lia. done.
Qed.

Lemma replace_scan_no_occurrence (old new s : pystr) :
  occurs old s = false -> replace_scan old new 0 s = s.
Proof.
  induction s as [|c s IH]; [done|].
  cbn [occurs replace_scan]. intros Hocc.
  apply orb_false_iff in Hocc as [Hhere Hlater].
  rewrite Hhere. f_equal. by apply IH.
Qed.

(** X7: an object name in which [".csv"] does not occur is its own table
    id. *)
Theorem derive_table_id_without_csv (file_name : pystr) :
  occurs (py ".csv") file_name = false ->
  derive_table_id file_name = file_name.
Proof. apply replace_scan_no_occurrence. Qed.

Lemma derive_table_id_without_csv_witness :
  derive_table_id (py "report") = py "report".
Proof. apply derive_table_id_without_csv. reflexivity. Defined.

(** X8: when [".csv"] occurs in the object name only as its final suffix,
    the table id is the name without that suffix. *)
Theorem derive_table_id_strips_only_suffix (base : pystr) :
  occurs (py ".csv") (base ++ py ".cs") = false ->
  derive_table_id (base ++ py ".csv") = base.
Proof.
  unfold derive_table_id. change (str_replace ?s (py ".csv") (py ""))
    with (replace_scan (py ".csv") [] 0 s).
  induction base as [|c base IH]; intros Hocc; [reflexivity|].
  cbn [app occurs] in Hocc.
  apply orb_false_iff in Hocc as [Hhere Hlater].
  cbn [app replace_scan].
  replace (startswith (c :: base ++ py ".csv") (py ".csv")) with false.
  - f_equal. by apply IH.
  - assert (Hsplit : c :: base ++ py ".csv"
                     = (c :: base ++ py ".cs") ++ [118]).
    { cbn [app]. f_equal. by rewrite <- app_assoc. }
    rewrite Hsplit, startswith_app; [by rewrite Hhere|].
    cbn [length]. rewrite length_app. cbn. lia.
Qed.

Lemma derive_table_id_strips_only_suffix_witness :
  derive_table_id (py "orders-2024" ++ py ".csv") = py "orders-2024".
Proof. apply derive_table_id_strips_only_suffix. reflexivity. Defined.

Lemma replace_scan_empty_length (old s : pystr) (skip : nat) :
  (length (replace_scan old [] skip s) <= length s)%nat.
Proof.
  revert skip. induction s as [|c s IH]; intros skip; [done|].
  cbn [replace_scan]. destruct skip as [|k].
  - destruct (startswith (c :: s) old); cbn [app length].
    + specialize (IH (length old - 1)%nat). lia.
    + specialize (IH 0%nat). lia.
  - specialize (IH k). cbn [length]. lia.
Qed.

(** X9: the table id is never longer than the object name. *)
Theorem derive_table_id_length (file_name : pystr) :
  (length (derive_table_id file_name) <= length file_name)%nat.
Proof. apply replace_scan_empty_length. Qed.

(** ** More on the pipeline *)

(** X10: the invocation reads nothing of the event but its ['name'] key:
    any other key, a bucket for instance, changes nothing. *)
Theorem process_csv_file_reads_only_name (w : World)
    (event : gmap string pystr) (key : string) (value : pystr)
    (fs : gmap pystr bytes) (tb : gmap (pystr * pystr) (list SchemaField)) :
  key <> "name"%string ->
  invoke w (<[key := value]> event) fs tb = invoke w event fs tb.
Proof.
  intros Hkey. unfold invoke, process_csv_file, getitem.
  by rewrite lookup_insert_ne.
Qed.

Lemma process_csv_file_reads_only_name_witness :
  invoke (example_world no_fault contacts_csv (Some (py "ascii")))
    (<["bucket"%string := py "another-bucket"]> (upload "contacts.csv")) ∅ ∅
  = invoke (example_world no_fault contacts_csv (Some (py "ascii")))
      (upload "contacts.csv") ∅ ∅.
Proof. apply process_csv_file_reads_only_name. discriminate. Defined.

(** X11: an event without a ['name'] key ends the invocation with
    [KeyError] before any call is issued; files and tables are untouched. *)
Theorem missing_name_raises_KeyError (w : World)
    (event : gmap string pystr) (fs : gmap pystr bytes)
    (tb : gmap (pystr * pystr) (list SchemaField)) :
  event !! "name"%string = None ->
  invoke w event fs tb
  = (inl (KeyError "name"), {| files := fs; tables := tb; log := [] |}).
Proof.
  intros Hname. unfold invoke, process_csv_file, getitem.
  rewrite Hname. reflexivity.
Qed.

Lemma missing_name_raises_KeyError_witness :
  invoke (example_world no_fault contacts_csv None)
    {[ "bucket"%string := py "csv-processing-bucket" ]} ∅ ∅
  = (inl (KeyError "name"), {| files := ∅; tables := ∅; log := [] |}).
Proof. apply missing_name_raises_KeyError. reflexivity. Defined.




(** X13: the calls of a successful invocation, in order: the object is
    downloaded into the temporary file, read twice (bytes, then text), the
    temporary file is closed, the table is created with the header's schema
    and reported, and the load job, which names the object by its URI, is
    submitted, awaited and reported. *)
Theorem successful_invocation_log (w : World) (event : gmap string pystr)
    (fs : gmap pystr bytes) (tb : gmap (pystr * pystr) (list SchemaField))
    (file_name : pystr) (data : bytes) (text : pystr)
    (header : list pystr) (records : list (list pystr)) :
  event !! "name"%string = Some file_name ->
  (forall l c, fault w l c = None) ->
  fs !! temp_name w = None ->
  blob_data w (py "csv-processing-bucket") file_name = Some data ->
  decode w (default (default_encoding w) (chardet_detect w data)) data
    = inr text ->
  csv_reader w text = header :: records ->
  tb !! (py "csv_imports", derive_table_id file_name) = None ->
  (invoke w event fs tb).1 = inr ()
  /\ log (invoke w event fs tb).2
     = [ (StorageClient, None);
         (NamedTemporaryFile, None);
         (DownloadToFilename (py "csv-processing-bucket") file_name
            (temp_name w), None);
         (OpenBinary (temp_name w), None);
         (OpenText (temp_name w) (chardet_detect w data), None);
         (TempfileClose (temp_name w), None);
         (BigqueryClient, None);
         (CreateTable (py "csv_imports") (derive_table_id file_name)
            (string_schema header), None);
         (Print (py "Table " ++ derive_table_id file_name
                 ++ py " created in dataset csv_imports."), None);
         (BigqueryClient, None);
         (LoadTableFromUri (py "gs://csv-processing-bucket/" ++ file_name)
            (py "csv_imports") (derive_table_id file_name)
            {| source_format := CSV;
               skip_leading_rows := 1;
               write_disposition := WRITE_TRUNCATE |}, None);
         (JobResult, None);
         (Print (py "CSV file from gs://csv-processing-bucket/" ++ file_name
                 ++ py " loaded into table " ++ derive_table_id file_name
                 ++ py "."), None) ].
Proof.
  intros Hname Hfault Hfresh Hblob Hdecode Hcsv Habsent.
  pattern (invoke w event fs tb).1, (invoke w event fs tb).2.
  apply invoke_ends.
  run; known_path Hfault; same_path; try congruence; try absurd_path.
  split; [done|]. reflexivity.
Qed.

Lemma successful_invocation_log_witness :
  let w := example_world no_fault contacts_csv (Some (py "ascii")) in
  (invoke w (upload "contacts.csv") ∅ ∅).1 = inr ()
  /\ length (log (invoke w (upload "contacts.csv") ∅ ∅).2) = 13%nat.
Proof.
  pose proof (successful_invocation_log
                (example_world no_fault contacts_csv (Some (py "ascii")))
                (upload "contacts.csv") ∅ ∅ (py "contacts.csv") contacts_csv
                _ _ _ eq_refl (fun l c => eq_refl) eq_refl eq_refl eq_refl
                eq_refl eq_refl) as [Hr Hlog].
  split; [exact Hr|]. rewrite Hlog. reflexivity.
Defined.

(** X14: invoking again for the same event after a success, with no call
    made to fail, ends with [Conflict] from the table creation: the tables
    stay as the first invocation left them and no load job is submitted. *)
Theorem second_invocation_conflicts (w : World) (event : gmap string pystr)
    (fs : gmap pystr bytes) (tb : gmap (pystr * pystr) (list SchemaField)) :
  (forall l c, fault w l c = None) ->
  (invoke w event fs tb).1 = inr () ->
  let first := (invoke w event fs tb).2 in
  let second := invoke w event (files first) (tables first) in
  second.1 = inl Conflict
  /\ tables second.2 = tables first
  /\ after_submit (log second.2) = None.
Proof.
  intros Hfault Hok first second.
  assert (Hinv : exists file_name data header,
             event !! "name"%string = Some file_name
             /\ fs !! temp_name w = None
             /\ blob_data w (py "csv-processing-bucket") file_name = Some data
             /\ ((exists text records,
                    decode w (default (default_encoding w)
                                (chardet_detect w data)) data = inr text
                    /\ csv_reader w text = header :: records)
                 \/ (exists e,
                       decode w (default (default_encoding w)
                                   (chardet_detect w data)) data = inl e
                       /\ lazy_first_record w
                            (default (default_encoding w)
                               (chardet_detect w data)) data = inr header))
             /\ files first = fs
             /\ tables first
                = <[(py "csv_imports", derive_table_id file_name)
                    := string_schema header]> tb).
  { subst first. revert Hok.
    pattern (invoke w event fs tb).1, (invoke w event fs tb).2.
    apply invoke_ends.
    run; known_path Hfault; try done.
    all: intros _; eexists _, _, _; split_and!; try done.
    all: try (files_back; done).
    all: eauto. }
  destruct Hinv as (file_name & data & header & Hname & Hfresh & Hblob
                    & Hread & Hfiles & Htables).
  subst second. rewrite Hfiles, Htables. clear Hok Hfiles Htables first.
  pattern (invoke w event fs (<[(py "csv_imports", derive_table_id file_name)
                                := string_schema header]> tb)).1,
          (invoke w event fs (<[(py "csv_imports", derive_table_id file_name)
                                := string_schema header]> tb)).2.
  apply invoke_ends.
  destruct Hread as [(text & records & Hdecode & Hcsv) | (e & Hdecode & Hlazy)].
  all: run; known_path Hfault; same_path; try congruence; try absurd_path.
  all: done.
Qed.

Lemma second_invocation_conflicts_witness :
  let w := example_world no_fault contacts_csv (Some (py "ascii")) in
  let first := (invoke w (upload "contacts.csv") ∅ ∅).2 in
  let second := invoke w (upload "contacts.csv") (files first) (tables first) in
  second.1 = inl Conflict
  /\ tables second.2 = tables first
  /\ after_submit (log second.2) = None.
Proof.
  apply (second_invocation_conflicts
           (example_world no_fault contacts_csv (Some (py "ascii")))
           (upload "contacts.csv") ∅ ∅).
  - intros l c. reflexivity.
  - vm_compute. reflexivity.
Defined.

(** X15: when the table exists and no call is made to fail,
    [create_bq_table_from_header] ends with [Conflict] after two calls; the
    existing schema is kept, whatever the new header, and nothing is
    printed. *)
Theorem create_bq_table_keeps_existing_schema (w : World)
    (dataset_id table_id : pystr) (header : list pystr)
    (existing : list SchemaField) (fs : gmap pystr bytes)
    (tb : gmap (pystr * pystr) (list SchemaField)) :
  (forall l c, fault w l c = None) ->
  tb !! (dataset_id, table_id) = Some existing ->
  create_bq_table_from_header w dataset_id table_id header
    {| files := fs; tables := tb; log := [] |}
  = (inl Conflict,
     {| files := fs; tables := tb;
        log := [ (BigqueryClient, None);
                 (CreateTable dataset_id table_id (string_schema header),
                  Some Conflict) ] |}).
Proof.
  intros Hfault Hexists.
  unfold create_bq_table_from_header, bigquery_Client, create_table, perform,
    mbind, M_bind, bind, ret.
  cbn [log]. rewrite Hfault. cbn [log log_call fst snd tables files app].
  rewrite Hfault, Hexists. reflexivity.
Qed.

Lemma create_bq_table_keeps_existing_schema_witness :
  create_bq_table_from_header (example_world no_fault contacts_csv None)
    (py "csv_imports") (py "contacts") [py "Name"; py "Phone"]
    {| files := ∅;
       tables := {[ (py "csv_imports", py "contacts")
                    := string_schema [py "Name"] ]};
       log := [] |}
  = (inl Conflict,
     {| files := ∅;
        tables := {[ (py "csv_imports", py "contacts")
                     := string_schema [py "Name"] ]};
        log := [ (BigqueryClient, None);
                 (CreateTable (py "csv_imports") (py "contacts")
                    (string_schema [py "Name"; py "Phone"]),
                  Some Conflict) ] |}).
Proof.
  apply (create_bq_table_keeps_existing_schema _ _ _ _
           (string_schema [py "Name"])).
  - intros l c. reflexivity.
  - apply lookup_singleton_eq.
Defined.

(** X16: every call of an invocation addresses the fixed bucket, the fixed
    dataset and the one temporary file; the table created and the table
    loaded are the same, and the load job's source is the URI of the object
    that was downloaded. *)
Theorem calls_address_fixed_bucket_and_dataset (w : World)
    (event : gmap string pystr) (fs : gmap pystr bytes)
    (tb : gmap (pystr * pystr) (list SchemaField)) (file_name : pystr) :
  event !! "name"%string = Some file_name ->
  Forall (fun e =>
            match e.1 with
            | DownloadToFilename bucket blob filename =>
                bucket = py "csv-processing-bucket" /\ blob = file_name
                /\ filename = temp_name w
            | OpenBinary filename | OpenText filename _
            | TempfileClose filename => filename = temp_name w
            | CreateTable dataset table _ =>
                dataset = py "csv_imports"
                /\ table = derive_table_id file_name
            | LoadTableFromUri uri dataset table _ =>
                uri = py "gs://csv-processing-bucket/" ++ file_name
                /\ dataset = py "csv_imports"
                /\ table = derive_table_id file_name
            | _ => True
            end) (log (invoke w event fs tb).2).
Proof.
  intros Hname.
  pattern (invoke w event fs tb).1, (invoke w event fs tb).2.
  apply invoke_ends.
  run; simplify_eq.
  all: repeat (first [apply Forall_nil | apply Forall_cons; split]).
  all: done.
Qed.

Lemma calls_address_fixed_bucket_and_dataset_witness :
  let w := example_world no_fault contacts_csv (Some (py "ascii")) in
  Forall (fun e =>
            match e.1 with
            | DownloadToFilename bucket blob filename =>
                bucket = py "csv-processing-bucket"
                /\ blob = py "contacts.csv"
                /\ filename = temp_name w
            | OpenBinary filename | OpenText filename _
            | TempfileClose filename => filename = temp_name w
            | CreateTable dataset table _ =>
                dataset = py "csv_imports"
                /\ table = derive_table_id (py "contacts.csv")
            | LoadTableFromUri uri dataset table _ =>
                uri = py "gs://csv-processing-bucket/" ++ py "contacts.csv"
                /\ dataset = py "csv_imports"
                /\ table = derive_table_id (py "contacts.csv")
            | _ => True
            end) (log (invoke w (upload "contacts.csv") ∅ ∅).2).
Proof.
  apply (calls_address_fixed_bucket_and_dataset
           (example_world no_fault contacts_csv (Some (py "ascii")))
           (upload "contacts.csv") ∅ ∅ (py "contacts.csv")).
  reflexivity.
Defined.

(** X17: the warehouse is called only after the temporary file has been
    created and closed and every earlier call has succeeded. *)
Theorem warehouse_called_after_tempfile_closed (w : World)
    (event : gmap string pystr) (fs : gmap pystr bytes)
    (tb : gmap (pystr * pystr) (list SchemaField)) :
  match before_warehouse (log (invoke w event fs tb).2) with
  | None => True
  | Some earlier =>
      temp_created earlier = true
      /\ temp_closed (temp_name w) earlier = true
      /\ first_failure earlier = None
  end.
Proof.
  pattern (invoke w event fs tb).1, (invoke w event fs tb).2.
  apply invoke_ends.
  run.
  all: cbn [before_warehouse warehouse_call fst fmap option_fmap option_map].
  all: try done.
  all: cbn [temp_created temp_closed first_failure existsb orb];
    rewrite ?bool_decide_eq_true_2 by done; done.
Qed.

(** X18: nothing is printed unless the table has been created; at most two
    messages are printed, and exactly two by a successful invocation. *)
Theorem prints_only_after_table_created (w : World)
    (event : gmap string pystr) (fs : gmap pystr bytes)
    (tb : gmap (pystr * pystr) (list SchemaField)) :
  let r := (invoke w event fs tb).1 in
  let l := log (invoke w event fs tb).2 in
  let printed := omap (fun e : entry => match e.1 with
                                        | Print message => Some message
                                        | _ => None
                                        end) l in
  let created := existsb (fun e : entry => match e with
                                           | (CreateTable _ _ _, None) => true
                                           | _ => false
                                           end) l in
  (if created then (length printed <= 2)%nat else printed = [])
  /\ match r with
     | inr _ => length printed = 2%nat
     | inl _ => True
     end.
Proof.
  cbv zeta.
  pattern (invoke w event fs tb).1, (invoke w event fs tb).2.
  apply invoke_ends.
  run.
  all: cbn [omap list_omap existsb orb fst length]; split; first [done | lia].
Qed.

